(** * remove_white_background.py: turning near-white pixels transparent

    A shallow embedding of [src/remove_white_background.py] and the
    properties its specification states about it.

    The script opens an image with PIL, normalises it to mode RGBA, views it
    as a numpy array of shape (height, width, 4) and dtype uint8, builds a
    boolean mask of the pixels whose three colour channels all exceed a
    threshold, stores 0 into the alpha channel under that mask and saves the
    result as a PNG.

    Layout of the development:
    - [Np]   the numpy operations the script uses, on nested lists;
    - [PIL]  images in the modes L, LA, RGB and RGBA, with the transparency
             entry a file may carry, and the conversions between images
             and arrays;
    - [IO]   a file system, standard output and Python exceptions as an
             error-and-state monad;
    - the script itself, then the per-pixel reading of the specification,
      then the theorems. *)

From Stdlib Require Import ZArith Init.Byte.
From Stdlib Require Strings.Byte.
From stdpp Require Import base option list strings gmap.

(** A uint8 channel is a [byte]; [u8] is its numeric value, in 0..255. *)
Definition u8 (b : byte) : Z := Z.of_N (Strings.Byte.to_N b).

(** ** numpy arrays *)
Module Np.

(** [data] has shape (H, W, C): rows of pixels of channels. *)
Abbreviation array3 := (list (list (list byte))).
(** A two-dimensional slice of shape (H, W). *)
Abbreviation plane := (list (list byte)).
(** A boolean array of shape (H, W). *)
Abbreviation bmask := (list (list bool)).

(** Apply [f] at every position of the first two axes. *)
Definition map2d {A B} (f : A → B) (rows : list (list A)) : list (list B) :=
  fmap (M := list) (fmap (M := list) f) rows.

(** [data[:, :, c]].  numpy raises IndexError when [c] is not below the
    size of the last axis; the script only slices the array of an RGBA
    image with c = 0, 1, 2, so that case is filled with 0 here. *)
Definition chan (c : nat) (data : array3) : plane :=
  map2d (fun px : list byte => default x00 (px !! c)) data.

(** [plane > t] for a Python integer [t]: an elementwise comparison of the
    numeric values (no wrap-around of [t] into uint8). *)
Definition gt (p : plane) (t : Z) : bmask :=
  map2d (fun b : byte => (u8 b >? t)%Z) p.

(** [m1 & m2] on boolean arrays of one shape. *)
Definition and_ (m1 m2 : bmask) : bmask :=
  zip_with (zip_with andb) m1 m2.

(** [data[m, c] = v]: store [v] in channel [c] of every pixel selected by
    the mask [m], which has the shape of the first two axes of [data]. *)
Definition assign_where (data : array3) (m : bmask) (c : nat) (v : byte)
  : array3 :=
  zip_with (zip_with (fun (px : list byte) (sel : bool) =>
                        if sel then <[c := v]> px else px)) data m.

Definition shape2 {A} (rows : list (list A)) : list nat := length <$> rows.

End Np.

(** ** PIL images *)
Module PIL.

Definition rgb := (byte * byte * byte)%type.
Definition rgba := (byte * byte * byte * byte)%type.

(** An image as [Image.open] yields it: grayscale (mode L), grayscale with
    alpha (mode LA), RGB or RGBA.  A grayscale or RGB file may carry a
    transparency entry (the tRNS chunk of a PNG), kept by PIL in
    [img.info['transparency']]: one gray level, or one colour, that is to
    be shown transparent.  [L_tRNS] and [RGB_tRNS] are the images of mode L
    and RGB that carry one; [L] and [RGB] carry none.  Palette images and
    the other modes of PIL are not modelled. *)
Inductive Image :=
| L (px : list (list byte))
| RGB (px : list (list rgb))
| RGBA (px : list (list rgba))
| LA (px : list (list (byte * byte)))
| L_tRNS (px : list (list byte)) (transparency : byte)
| RGB_tRNS (px : list (list rgb)) (transparency : rgb).

Definition mode (img : Image) : string :=
  match img with
  | L _ | L_tRNS _ _ => "L"
  | LA _ => "LA"
  | RGB _ | RGB_tRNS _ _ => "RGB"
  | RGBA _ => "RGBA"
  end.

Definition bands (img : Image) : nat :=
  match img with
  | L _ | L_tRNS _ _ => 1
  | LA _ => 2
  | RGB _ | RGB_tRNS _ _ => 3
  | RGBA _ => 4
  end.

(** [img.has_transparency_data]: the mode has an alpha band or the image
    carries a transparency entry. *)
Definition has_transparency_data (img : Image) : bool :=
  match img with
  | L _ | RGB _ => false
  | LA _ | RGBA _ | L_tRNS _ _ | RGB_tRNS _ _ => true
  end.

Definition height (img : Image) : nat :=
  match img with
  | L px | L_tRNS px _ => length px
  | LA px => length px
  | RGB px | RGB_tRNS px _ => length px
  | RGBA px => length px
  end.

Definition row_width {A} (px : list (list A)) : nat :=
  match px with
  | [] => 0
  | row :: _ => length row
  end.

Definition width (img : Image) : nat :=
  match img with
  | L px | L_tRNS px _ => row_width px
  | LA px => row_width px
  | RGB px | RGB_tRNS px _ => row_width px
  | RGBA px => row_width px
  end.

(** The length of every row, top to bottom. *)
Definition row_lengths (img : Image) : list nat :=
  match img with
  | L px | L_tRNS px _ => Np.shape2 px
  | LA px => Np.shape2 px
  | RGB px | RGB_tRNS px _ => Np.shape2 px
  | RGBA px => Np.shape2 px
  end.

Definition rgb_eqb (c k : rgb) : bool :=
  let '(r, g, b) := c in
  let '(kr, kg, kb) := k in
  Strings.Byte.eqb r kr && Strings.Byte.eqb g kg && Strings.Byte.eqb b kb.

(** The pixels of [img.convert('RGBA')].  A gray level is copied to the
    three colour channels.  A pixel of an image without alpha band gets
    alpha 255, except that, when the image carries a transparency entry,
    the pixels equal to that entry get alpha 0 (their colour is kept).  The
    alpha of an LA image is kept, and an RGBA image is copied as it is. *)
Definition rgba_pixels (img : Image) : list (list rgba) :=
  match img with
  | L px => Np.map2d (fun l : byte => (l, l, l, xff)) px
  | RGB px => Np.map2d (fun c : rgb => let '(r, g, b) := c in (r, g, b, xff)) px
  | RGBA px => px
  | LA px => Np.map2d (fun c : byte * byte => let '(l, a) := c in (l, l, l, a)) px
  | L_tRNS px k =>
      Np.map2d (fun l : byte =>
                  (l, l, l, if Strings.Byte.eqb l k then x00 else xff)) px
  | RGB_tRNS px k =>
      Np.map2d (fun c : rgb =>
                  let '(r, g, b) := c in
                  (r, g, b, if rgb_eqb c k then x00 else xff)) px
  end.

Definition convert_RGBA (img : Image) : Image := RGBA (rgba_pixels img).

Definition channels (p : rgba) : list byte :=
  let '(r, g, b, a) := p in [r; g; b; a].

(** [np.array(img)] for an image in mode RGBA: shape (H, W, 4).  The
    script converts to RGBA first, so the arrays of the other modes
    (shape (H, W), (H, W, 2) and (H, W, 3)) are given for completeness
    only. *)
Definition to_array (img : Image) : Np.array3 :=
  match img with
  | L px | L_tRNS px _ => Np.map2d (fun l : byte => [l]) px
  | LA px => Np.map2d (fun c : byte * byte => let '(l, a) := c in [l; a]) px
  | RGB px | RGB_tRNS px _ =>
      Np.map2d (fun c : rgb => let '(r, g, b) := c in [r; g; b]) px
  | RGBA px => Np.map2d channels px
  end.

Definition pixel_of_channels (px : list byte) : option rgba :=
  match px with
  | [r; g; b; a] => Some (r, g, b, a)
  | _ => None
  end.

(** [Image.fromarray(data, 'RGBA')]: fails (None, an exception in PIL)
    unless every pixel has exactly four channels. *)
Definition fromarray_RGBA (data : Np.array3) : option Image :=
  RGBA <$> mapM (mapM pixel_of_channels) data.

End PIL.

(** ** The transformation of the pixel data (lines 21 to 38) *)

(** Lines 30 to 32: the mask of the white pixels. *)
Definition white_pixels (data : Np.array3) (threshold : Z) : Np.bmask :=
  Np.and_ (Np.and_ (Np.gt (Np.chan 0 data) threshold)
                   (Np.gt (Np.chan 1 data) threshold))
          (Np.gt (Np.chan 2 data) threshold).

(** Lines 26 to 35: the array after the alpha of the white pixels is
    cleared. *)
Definition masked_array (img : PIL.Image) (threshold : Z) : Np.array3 :=
  let data := PIL.to_array img in
  Np.assign_where data (white_pixels data threshold) 3 x00.

(** Lines 22 and 23. *)
Definition normalise (img : PIL.Image) : PIL.Image :=
  if bool_decide (PIL.mode img ≠ "RGBA") then PIL.convert_RGBA img else img.

(** Lines 22 to 38: from the opened image to the image that is saved. *)
Definition transparent_image (img : PIL.Image) (threshold : Z)
  : option PIL.Image :=
  PIL.fromarray_RGBA (masked_array (normalise img) threshold).

(** ** Files, standard output and exceptions *)
Module IO.

(** The error codes with which the operating system refuses to open a
    path: it does not exist (for writing: its directory does not exist), it
    may not be accessed, it is a directory, a component of it is not a
    directory. *)
Inductive errno := ENOENT | EACCES | EISDIR | ENOTDIR.

(** What a path holds, seen through [Image.open] and the loading of the
    pixel data: the image the file decodes to; bytes that PIL cannot
    identify as an image; an image file that PIL identifies but cannot read
    in full (cut short, say), with the message of the OSError PIL raises
    for it; or something the operating system refuses to open for
    reading. *)
Inductive file :=
| ImageFile (img : PIL.Image)
| OtherFile (content : list byte)
| TruncatedFile (msg : string)
| Unopenable (code : errno).

Record World := mkWorld {
  fs : gmap string file;
  can_write : string → bool;   (* the path can be opened for writing *)
  write_errno : string → errno; (* the error code when it cannot *)
  stdout : list string;        (* the lines printed so far *)
}.

(** The exceptions the script can meet; all derive from [Exception].
    [OSError code path] is the OSError the operating system's refusal
    becomes: FileNotFoundError for ENOENT, PermissionError for EACCES,
    IsADirectoryError for EISDIR, NotADirectoryError for ENOTDIR.
    [OSError_plain msg] is an OSError raised by PIL itself, without error
    code. *)
Inductive exn :=
| OSError (code : errno) (path : string)
| OSError_plain (msg : string)
| UnidentifiedImageError (path : string)
| ValueError (msg : string).

Abbreviation FileNotFoundError path := (OSError ENOENT path).
Abbreviation PermissionError path := (OSError EACCES path).
Abbreviation IsADirectoryError path := (OSError EISDIR path).
Abbreviation NotADirectoryError path := (OSError ENOTDIR path).

Definition strerror (code : errno) : string :=
  match code with
  | ENOENT => "[Errno 2] No such file or directory"
  | EACCES => "[Errno 13] Permission denied"
  | EISDIR => "[Errno 21] Is a directory"
  | ENOTDIR => "[Errno 20] Not a directory"
  end.

(** [str(e)], for a path without quote or backslash (Python prints the
    path as its [repr]). *)
Definition str (e : exn) : string :=
  match e with
  | OSError code p => strerror code +:+ ": '" +:+ p +:+ "'"
  | OSError_plain msg => msg
  | UnidentifiedImageError p => "cannot identify image file '" +:+ p +:+ "'"
  | ValueError msg => msg
  end.

Inductive outcome (A : Type) :=
| Returned (a : A)
| Raised (e : exn).
Arguments Returned {A} a.
Arguments Raised {A} e.

(** A statement: it runs in a world and either returns or raises, leaving
    a world behind. *)
Definition M (A : Type) : Type := World → outcome A * World.

Definition ret {A} (a : A) : M A := fun w => (Returned a, w).
Definition raise {A} (e : exn) : M A := fun w => (Raised e, w).
Definition bind {A B} (m : M A) (k : A → M B) : M B :=
  fun w => match m w with
           | (Returned a, w') => k a w'
           | (Raised e, w') => (Raised e, w')
           end.

#[global] Instance M_ret : MRet M := @ret.
#[global] Instance M_bind : MBind M := fun A B k m => bind m k.

(** [try: body except Exception as e: handler e] *)
Definition try_except {A} (body : M A) (handler : exn → M A) : M A :=
  fun w => match body w with
           | (Returned a, w') => (Returned a, w')
           | (Raised e, w') => handler e w'
           end.

Definition print (line : string) : M unit :=
  fun w => (Returned tt,
            {| fs := fs w; can_write := can_write w;
               write_errno := write_errno w;
               stdout := stdout w ++ [line] |}).

(** [Image.open(path)] followed by the loading of the pixel data, which
    PIL does when the image is first used (by [convert] or [np.array]);
    nothing else happens in between. *)
Definition Image_open (path : string) : M PIL.Image :=
  fun w => match fs w !! path with
           | None => (Raised (FileNotFoundError path), w)
           | Some (Unopenable code) => (Raised (OSError code path), w)
           | Some (OtherFile _) => (Raised (UnidentifiedImageError path), w)
           | Some (TruncatedFile msg) => (Raised (OSError_plain msg), w)
           | Some (ImageFile img) => (Returned img, w)
           end.

(** [Image.fromarray(data, 'RGBA')] *)
Definition Image_fromarray (r : option PIL.Image) : M PIL.Image :=
  match r with
  | Some img => ret img
  | None => raise (ValueError "not enough image data")
  end.

(** [img.save(path, 'PNG')]: PIL opens the path for writing, which raises
    the OSError of the operating system's refusal (FileNotFoundError when
    the directory is missing, PermissionError when access is denied, ...)
    before anything is written; otherwise the file then decodes to [img].
    Failures after the path has been opened (a full disk) are not
    modelled. *)
Definition Image_save (img : PIL.Image) (path : string) : M unit :=
  fun w => if can_write w path
           then (Returned tt,
                 {| fs := <[path := ImageFile img]> (fs w);
                    can_write := can_write w;
                    write_errno := write_errno w; stdout := stdout w |})
           else (Raised (OSError (write_errno w path) path), w).

(** The exit status of the interpreter after running a script: 0 when the
    module body returns, 1 when an exception leaves it. *)
Definition exit_status {A} (r : outcome A) : Z :=
  match r with
  | Returned _ => 0
  | Raised _ => 1
  end.

End IO.
Import IO.

(** ** The script *)

Definition remove_white_background
  (input_path output_path : string) (threshold : Z) : M unit :=
  img ← Image_open input_path;
  new_img ← Image_fromarray (transparent_image img threshold);
  Image_save new_img output_path;;
  print ("Saved transparent image to: " +:+ output_path).

Definition input_file : string := "public/assets/sprites/cannon2.png".
Definition output_file : string := "public/assets/sprites/cannon2_transparent.png".

(** The body under [if __name__ == "__main__"]. *)
Definition main : M unit :=
  try_except
    (remove_white_background input_file output_file 240;;
     print "Successfully removed white background!")
    (fun e => print ("Error: " +:+ str e)).

(** Running the script as a process: exit status and final world. *)
Definition run_main (w : World) : Z * World :=
  let '(r, w') := main w in (exit_status r, w').

(** ** The specification, pixel by pixel

    The specification describes the transformation one pixel at a time.
    These definitions follow its wording; the theorems below relate them to
    the array program above. *)

Definition colour (p : PIL.rgba) : PIL.rgb := let '(r, g, b, _) := p in (r, g, b).
Definition alpha (p : PIL.rgba) : byte := let '(_, _, _, a) := p in a.

(** is_background = (R > threshold) AND (G > threshold) AND (B > threshold) *)
Definition is_background (threshold : Z) (p : PIL.rgba) : bool :=
  let '(r, g, b, _) := p in
  (u8 r >? threshold)%Z && (u8 g >? threshold)%Z && (u8 b >? threshold)%Z.

(** Where is_background is true the alpha becomes 0; nothing else changes. *)
Definition mask_pixel (threshold : Z) (p : PIL.rgba) : PIL.rgba :=
  let '(r, g, b, a) := p in
  if is_background threshold p then (r, g, b, x00) else (r, g, b, a).

(** The pixel in row [i] and column [j]. *)
Definition at2 {A} (rows : list (list A)) (i j : nat) : option A :=
  rows !! i ≫= (fun row => row !! j).

(** The test of lines 30 to 32 on the channel list of one pixel. *)
Definition white (threshold : Z) (px : list byte) : bool :=
  (u8 (default x00 (px !! 0%nat)) >? threshold)%Z
  && (u8 (default x00 (px !! 1%nat)) >? threshold)%Z
  && (u8 (default x00 (px !! 2%nat)) >? threshold)%Z.

(** Mask correctness with the alpha forced to full opacity, at one input:
    in the output a background pixel has alpha 0 and every other pixel has
    alpha 255. *)
Definition alpha_zero_or_opaque (img : PIL.Image) (threshold : Z) : Prop :=
  ∀ out i j p q,
    transparent_image img threshold = Some out →
    at2 (PIL.rgba_pixels img) i j = Some p →
    at2 (PIL.rgba_pixels out) i j = Some q →
    alpha q = if is_background threshold p then x00 else xff.

(** Expansion with a fully opaque alpha, at one input: after lines 22 and
    23 every pixel of the array has four channels, the alpha 255. *)
Definition expanded_opaque (img : PIL.Image) : Prop :=
  Forall (Forall (fun px : list byte =>
                    length px = 4%nat ∧ px !! 3%nat = Some xff))
         (PIL.to_array (normalise img)).

(** Alpha cleared, colour kept. *)
Definition clear_alpha (p : PIL.rgba) : PIL.rgba :=
  let '(r, g, b, _) := p in (r, g, b, x00).

(** * Lemmas on arrays *)
Section Map2d.
Context {A B C D : Type}.

Lemma map2d_length (f : A → B) rows : length (Np.map2d f rows) = length rows.
Proof. unfold Np.map2d. by rewrite length_fmap. Qed.

Lemma map2d_shape (f : A → B) rows : Np.shape2 (Np.map2d f rows) = Np.shape2 rows.
Proof.
  unfold Np.shape2, Np.map2d. rewrite <- list_fmap_compose.
  apply list_fmap_ext. intros _ row _. simpl. by rewrite length_fmap.
Qed.

Lemma map2d_row_width (f : A → B) rows :
  PIL.row_width (Np.map2d f rows) = PIL.row_width rows.
Proof. destruct rows as [|row rows]; simpl; [done | by rewrite length_fmap]. Qed.

Lemma map2d_ext (f g : A → B) rows :
  (∀ x, f x = g x) → Np.map2d f rows = Np.map2d g rows.
Proof.
  intros Hfg. unfold Np.map2d.
  apply list_fmap_ext. intros _ row _. apply list_fmap_ext. auto.
Qed.

Lemma map2d_compose (f : A → B) (g : B → C) rows :
  Np.map2d g (Np.map2d f rows) = Np.map2d (g ∘ f) rows.
Proof.
  unfold Np.map2d. rewrite <- list_fmap_compose.
  apply list_fmap_ext. intros _ row _. simpl. by rewrite <- list_fmap_compose.
Qed.

Lemma at2_map2d (f : A → B) rows i j :
  at2 (Np.map2d f rows) i j = f <$> at2 rows i j.
Proof.
  unfold at2, Np.map2d. rewrite list_lookup_fmap.
  destruct (rows !! i) as [row|]; simpl; [|done]. by rewrite list_lookup_fmap.
Qed.

(** Two planes computed from one array, combined elementwise. *)
Lemma zip2_map2d (f : B → C → D) (g : A → B) (h : A → C) rows :
  zip_with (zip_with f) (Np.map2d g rows) (Np.map2d h rows)
  = Np.map2d (fun x => f (g x) (h x)) rows.
Proof.
  unfold Np.map2d. induction rows as [|row rows IH]; simpl; [done|].
  f_equal; [|exact IH]. clear IH. induction row as [|x row IH]; csimpl; [done | by f_equal].
Qed.

(** An array combined elementwise with a plane computed from it. *)
Lemma zip2_map2d_r (f : A → B → C) (h : A → B) rows :
  zip_with (zip_with f) rows (Np.map2d h rows)
  = Np.map2d (fun x => f x (h x)) rows.
Proof.
  unfold Np.map2d. induction rows as [|row rows IH]; simpl; [done|].
  f_equal; [|exact IH]. clear IH. induction row as [|x row IH]; csimpl; [done | by f_equal].
Qed.
End Map2d.

Lemma map2d_id {A} (rows : list (list A)) : Np.map2d id rows = rows.
Proof.
  unfold Np.map2d. induction rows as [|row rows IH]; simpl; [done|].
  f_equal; [apply list_fmap_id | exact IH].
Qed.

(** The numeric value of a channel is within 0..255. *)
Lemma u8_range (b : byte) : (0 ≤ u8 b ≤ 255)%Z.
Proof.
  unfold u8. pose proof (Strings.Byte.to_N_bounded b) as Hb. lia.
Qed.

(** * Lemmas on the transformation *)

Lemma white_pixels_map2d data threshold :
  white_pixels data threshold = Np.map2d (white threshold) data.
Proof.
  unfold white_pixels, Np.and_, Np.gt, Np.chan.
  rewrite !map2d_compose, !zip2_map2d. apply map2d_ext. done.
Qed.

Lemma white_channels threshold p :
  white threshold (PIL.channels p) = is_background threshold p.
Proof. by destruct p as [[[r g] b] a]. Qed.

Lemma masked_array_RGBA px threshold :
  masked_array (PIL.RGBA px) threshold
  = Np.map2d PIL.channels (Np.map2d (mask_pixel threshold) px).
Proof.
  unfold masked_array, Np.assign_where. rewrite white_pixels_map2d, zip2_map2d_r.
  simpl. rewrite !map2d_compose. apply map2d_ext.
  intros p. simpl. rewrite white_channels.
  destruct p as [[[r g] b] a]. unfold mask_pixel.
  by destruct (is_background threshold (r, g, b, a)).
Qed.

Lemma mapM_channels (row : list PIL.rgba) :
  mapM PIL.pixel_of_channels (PIL.channels <$> row) = Some row.
Proof.
  apply mapM_Some. apply Forall2_fmap_l, Forall_Forall2_diag, Forall_forall.
  by intros [[[r g] b] a] _.
Qed.

Lemma fromarray_channels px :
  PIL.fromarray_RGBA (Np.map2d PIL.channels px) = Some (PIL.RGBA px).
Proof.
  unfold PIL.fromarray_RGBA, Np.map2d.
  enough (mapM (mapM PIL.pixel_of_channels) (fmap (M := list) PIL.channels <$> px)
          = Some px) as -> by done.
  apply mapM_Some. apply Forall2_fmap_l, Forall_Forall2_diag, Forall_forall.
  intros row _. apply mapM_channels.
Qed.

Lemma normalise_pixels img : normalise img = PIL.RGBA (PIL.rgba_pixels img).
Proof. by destruct img. Qed.

(** The transformation never fails, and it is the per-pixel masking of the
    image normalised to RGBA. *)
Lemma transparent_image_spec img threshold :
  transparent_image img threshold
  = Some (PIL.RGBA (Np.map2d (mask_pixel threshold) (PIL.rgba_pixels img))).
Proof.
  unfold transparent_image.
  by rewrite normalise_pixels, masked_array_RGBA, fromarray_channels.
Qed.

Lemma at2_channels px i j r g b a :
  at2 (Np.map2d PIL.channels px) i j = Some [r; g; b; a] →
  at2 px i j = Some (r, g, b, a).
Proof.
  rewrite at2_map2d. destruct (at2 px i j) as [[[[r' g'] b'] a']|]; simpl; [|done].
  by intros [= -> -> -> ->].
Qed.

Lemma mask_pixel_colour threshold p : colour (mask_pixel threshold p) = colour p.
Proof.
  destruct p as [[[r g] b] a]. unfold mask_pixel.
  by destruct (is_background threshold (r, g, b, a)).
Qed.

Lemma mask_pixel_alpha threshold p :
  alpha (mask_pixel threshold p)
  = if is_background threshold p then x00 else alpha p.
Proof.
  destruct p as [[[r g] b] a]. unfold mask_pixel.
  by destruct (is_background threshold (r, g, b, a)).
Qed.

Lemma is_background_mask_pixel threshold p :
  is_background threshold (mask_pixel threshold p) = is_background threshold p.
Proof.
  destruct p as [[[r g] b] a]. unfold mask_pixel.
  by destruct (is_background threshold (r, g, b, a)) eqn:E.
Qed.

Lemma mask_pixel_idempotent threshold p :
  mask_pixel threshold (mask_pixel threshold p) = mask_pixel threshold p.
Proof.
  destruct p as [[[r g] b] a]. unfold mask_pixel at 2.
  destruct (is_background threshold (r, g, b, a)) eqn:E; unfold mask_pixel.
  - change (is_background threshold (r, g, b, x00))
      with (is_background threshold (r, g, b, a)). by rewrite E.
  - by rewrite E.
Qed.

Lemma is_background_high threshold p :
  (255 ≤ threshold)%Z → is_background threshold p = false.
Proof.
  intros Ht. destruct p as [[[r g] b] a]. unfold is_background.
  pose proof (u8_range r). destruct (Z.gtb_spec (u8 r) threshold); [lia | done].
Qed.

Lemma is_background_negative threshold p :
  (threshold < 0)%Z → is_background threshold p = true.
Proof.
  intros Ht. destruct p as [[[r g] b] a]. unfold is_background.
  pose proof (u8_range r). pose proof (u8_range g). pose proof (u8_range b).
  destruct (Z.gtb_spec (u8 r) threshold); [|lia].
  destruct (Z.gtb_spec (u8 g) threshold); [|lia].
  destruct (Z.gtb_spec (u8 b) threshold); [done | lia].
Qed.

(** * The scenarios of the specification *)

(** Scenario A: a white and a black pixel, threshold 240. *)
Example scenario_A :
  transparent_image (PIL.RGB [[(xff, xff, xff); (x00, x00, x00)]]) 240
  = Some (PIL.RGBA [[(xff, xff, xff, x00); (x00, x00, x00, xff)]]).
Proof. reflexivity. Qed.

(** Scenario B: an all-white image becomes fully transparent. *)
Example scenario_B :
  transparent_image (PIL.RGB (replicate 10 (replicate 10 (xff, xff, xff)))) 240
  = Some (PIL.RGBA (replicate 10 (replicate 10 (xff, xff, xff, x00)))).
Proof. vm_compute. reflexivity. Qed.

(** Scenario C: a mid-gray image stays fully opaque. *)
Example scenario_C :
  transparent_image (PIL.L (replicate 100 (replicate 100 x80))) 240
  = Some (PIL.RGBA (replicate 100 (replicate 100 (x80, x80, x80, xff)))).
Proof. vm_compute. reflexivity. Qed.

(** * The properties of the specification *)

(** ** Mask correctness *)

(** C1, as the specification states it, fails: an RGBA input is not
    converted, so its alpha is never forced to 255.  A dark pixel with
    alpha 100 leaves the transformation with alpha 100, not 255. *)
Lemma translucent_pixel_not_opaque :
  ¬ alpha_zero_or_opaque (PIL.RGBA [[(x0a, x0a, x0a, x64)]]) 240.
Proof.
  intros H.
  specialize (H (PIL.RGBA [[(x0a, x0a, x0a, x64)]]) 0%nat 0%nat
                (x0a, x0a, x0a, x64) (x0a, x0a, x0a, x64)
                eq_refl eq_refl eq_refl).
  discriminate H.
Qed.

(** C1, amended: the transformation succeeds, and in its output a pixel
    whose R, G and B all exceed the threshold has alpha 0 while every other
    pixel keeps the alpha that PIL's conversion to RGBA gives it: the
    stored alpha for an RGBA or LA input; for a grayscale or RGB input,
    255, except that a pixel equal to the transparency entry the image
    carries, if it carries one, has alpha 0. *)
Theorem alpha_mask_correct img threshold i j p :
  at2 (PIL.rgba_pixels img) i j = Some p →
  ∃ out q,
    transparent_image img threshold = Some out
    ∧ at2 (PIL.rgba_pixels out) i j = Some q
    ∧ alpha q = (if is_background threshold p then x00 else alpha p)
    ∧ match img with
      | PIL.RGBA px => at2 px i j = Some p
      | PIL.LA px => snd <$> at2 px i j = Some (alpha p)
      | PIL.L _ | PIL.RGB _ => alpha p = xff
      | PIL.L_tRNS px k =>
          (fun l => if Strings.Byte.eqb l k then x00 else xff) <$> at2 px i j
          = Some (alpha p)
      | PIL.RGB_tRNS px k =>
          (fun c => if PIL.rgb_eqb c k then x00 else xff) <$> at2 px i j
          = Some (alpha p)
      end.
Proof.
  intros Hp. eexists _, (mask_pixel threshold p).
  split; [apply transparent_image_spec|]. simpl.
  split; [by rewrite at2_map2d, Hp|].
  split; [apply mask_pixel_alpha|].
  destruct img as [px|px|px|px|px k|px k]; simpl in *; [| |done| | |];
    rewrite at2_map2d in Hp.
  - destruct (at2 px i j); simpl in Hp; [|done]. by injection Hp as <-.
  - destruct (at2 px i j) as [[[r g] b]|]; simpl in Hp; [|done].
    by injection Hp as <-.
  - destruct (at2 px i j) as [[l a]|]; simpl in *; [|done].
    by injection Hp as <-.
  - destruct (at2 px i j) as [l|]; simpl in *; [|done].
    by injection Hp as <-.
  - destruct (at2 px i j) as [[[r g] b]|]; simpl in *; [|done].
    by injection Hp as <-.
Qed.

Lemma alpha_mask_correct_witness :
  ∃ out q,
    transparent_image
      (PIL.RGBA [[(xff, xff, xff, x64); (x0a, x0a, x0a, x64)]]) 240 = Some out
    ∧ at2 (PIL.rgba_pixels out) 0 1 = Some q
    ∧ alpha q = x64
    ∧ at2 [[(xff, xff, xff, x64); (x0a, x0a, x0a, x64)]] 0 1
      = Some (x0a, x0a, x0a, x64).
Proof.
  exact (alpha_mask_correct
           (PIL.RGBA [[(xff, xff, xff, x64); (x0a, x0a, x0a, x64)]])
           240 0%nat 1%nat (x0a, x0a, x0a, x64) eq_refl).
Defined.

(** ** The background test *)

(** C2: the mask computed by lines 30 to 32 is, at every pixel,
    (R > threshold) and (G > threshold) and (B > threshold), a strict test
    of the three colour channels in which alpha has no part; a pixel whose
    R, G and B all equal the threshold is not selected and the masked
    array holds it unchanged. *)
Theorem background_test img threshold i j r g b a :
  at2 (PIL.to_array (normalise img)) i j = Some [r; g; b; a] →
  at2 (white_pixels (PIL.to_array (normalise img)) threshold) i j
  = Some ((u8 r >? threshold)%Z && (u8 g >? threshold)%Z && (u8 b >? threshold)%Z)
  ∧ (u8 r = threshold → u8 g = threshold → u8 b = threshold →
     at2 (white_pixels (PIL.to_array (normalise img)) threshold) i j = Some false
     ∧ at2 (masked_array (normalise img) threshold) i j = Some [r; g; b; a]).
Proof.
  intros Hpx.
  assert (Hw : at2 (white_pixels (PIL.to_array (normalise img)) threshold) i j
               = Some ((u8 r >? threshold)%Z && (u8 g >? threshold)%Z
                       && (u8 b >? threshold)%Z)).
  { by rewrite white_pixels_map2d, at2_map2d, Hpx. }
  split; [exact Hw|]. intros Hr Hg Hb.
  assert (Hf : ((u8 r >? threshold)%Z && (u8 g >? threshold)%Z
                && (u8 b >? threshold)%Z) = false).
  { rewrite Hr. destruct (Z.gtb_spec threshold threshold); [lia | done]. }
  split; [by rewrite Hw, Hf|].
  rewrite normalise_pixels in Hpx |- *. simpl in Hpx.
  apply at2_channels in Hpx.
  rewrite masked_array_RGBA, !at2_map2d, Hpx. simpl.
  unfold mask_pixel, is_background. by rewrite Hf.
Qed.

Lemma background_test_witness :
  at2 (white_pixels (PIL.to_array (normalise (PIL.RGB [[(xf0, xf0, xf0)]]))) 240) 0 0
  = Some false
  ∧ at2 (masked_array (normalise (PIL.RGB [[(xf0, xf0, xf0)]])) 240) 0 0
    = Some [xf0; xf0; xf0; xff].
Proof.
  exact (proj2 (background_test (PIL.RGB [[(xf0, xf0, xf0)]]) 240 0%nat 0%nat
                  xf0 xf0 xf0 xff eq_refl)
           eq_refl eq_refl eq_refl).
Defined.

(** ** Colour preservation *)

(** C3: the output has, at every pixel, the R, G and B of the input (for a
    grayscale input, with or without alpha, its gray level in each of the
    three); the transformation changes the alpha channel only. *)
Theorem colours_preserved img threshold :
  ∃ out,
    transparent_image img threshold = Some out
    ∧ Np.map2d colour (PIL.rgba_pixels out) = Np.map2d colour (PIL.rgba_pixels img)
    ∧ match img with
      | PIL.L px =>
          Np.map2d colour (PIL.rgba_pixels out) = Np.map2d (fun l => (l, l, l)) px
      | PIL.RGB px => Np.map2d colour (PIL.rgba_pixels out) = px
      | PIL.RGBA px => Np.map2d colour (PIL.rgba_pixels out) = Np.map2d colour px
      | PIL.LA px =>
          Np.map2d colour (PIL.rgba_pixels out)
          = Np.map2d (fun c => (c.1, c.1, c.1)) px
      | PIL.L_tRNS px _ =>
          Np.map2d colour (PIL.rgba_pixels out) = Np.map2d (fun l => (l, l, l)) px
      | PIL.RGB_tRNS px _ => Np.map2d colour (PIL.rgba_pixels out) = px
      end.
Proof.
  eexists. split; [apply transparent_image_spec|]. simpl.
  assert (Hc : Np.map2d colour (Np.map2d (mask_pixel threshold) (PIL.rgba_pixels img))
               = Np.map2d colour (PIL.rgba_pixels img)).
  { rewrite map2d_compose. apply map2d_ext. intros p. apply mask_pixel_colour. }
  split; [exact Hc|]. rewrite Hc.
  destruct img as [px|px|px|px|px k|px k]; simpl; [| |done| | |];
    rewrite map2d_compose.
  - by apply map2d_ext.
  - rewrite <- (map2d_id px) at 2. apply map2d_ext. by intros [[r g] b].
  - apply map2d_ext. by intros [l a].
  - by apply map2d_ext.
  - rewrite <- (map2d_id px) at 2. apply map2d_ext. by intros [[r g] b].
Qed.

(** ** Normalisation to four channels *)

(** C4, as the specification states it, fails: PIL's conversion to RGBA
    honours the transparency entry of a grayscale or RGB image and keeps
    the alpha of an LA image.  A grayscale image whose transparency entry
    is the level 16 has one channel, and its pixel of level 16 is expanded
    with alpha 0, not 255. *)
Lemma transparency_entry_not_opaque :
  (PIL.bands (PIL.L_tRNS [[x10; x20]] x10) < 4)%nat
  ∧ PIL.to_array (normalise (PIL.L_tRNS [[x10; x20]] x10))
    = [[[x10; x10; x10; x00]; [x20; x20; x20; xff]]]
  ∧ ¬ expanded_opaque (PIL.L_tRNS [[x10; x20]] x10).
Proof.
  split; [simpl; lia|]. split; [reflexivity|].
  intros H. vm_compute in H.
  inversion H as [|row rows Hrow _]. inversion Hrow as [|px pxs [_ Ha] _].
  discriminate Ha.
Qed.

(** C4, amended: a grayscale or RGB image that carries no transparency
    information (no alpha band, no transparency entry) is expanded to RGBA
    before masking, every pixel of the array getting four channels of
    which the alpha is 255; the rows keep their lengths. *)
Theorem opaque_alpha_synthesised img :
  (PIL.bands img < 4)%nat →
  PIL.has_transparency_data img = false →
  PIL.mode (normalise img) = "RGBA"
  ∧ PIL.bands (normalise img) = 4%nat
  ∧ PIL.row_lengths (normalise img) = PIL.row_lengths img
  ∧ Forall (Forall (fun px : list byte =>
                      length px = 4%nat ∧ px !! 3%nat = Some xff))
           (PIL.to_array (normalise img)).
Proof.
  intros Hb Ht. rewrite normalise_pixels. simpl.
  split; [done|]. split; [done|].
  destruct img as [px|px|px|px|px k|px k]; simpl in *; [| |lia|done..].
  - split; [apply map2d_shape|].
    rewrite map2d_compose. unfold Np.map2d.
    apply Forall_fmap, Forall_forall. intros row _.
    apply Forall_fmap, Forall_forall. by intros l _.
  - split; [apply map2d_shape|].
    rewrite map2d_compose. unfold Np.map2d.
    apply Forall_fmap, Forall_forall. intros row _.
    apply Forall_fmap, Forall_forall. by intros [[r g] b] _.
Qed.

Lemma opaque_alpha_synthesised_witness :
  PIL.mode (normalise (PIL.L [[x10; x20]])) = "RGBA"
  ∧ PIL.bands (normalise (PIL.L [[x10; x20]])) = 4%nat
  ∧ PIL.row_lengths (normalise (PIL.L [[x10; x20]])) = [2%nat]
  ∧ Forall (Forall (fun px : list byte =>
                      length px = 4%nat ∧ px !! 3%nat = Some xff))
           [[[x10; x10; x10; xff]; [x20; x20; x20; xff]]].
Proof.
  exact (opaque_alpha_synthesised (PIL.L [[x10; x20]])
           (le_S _ _ (le_S _ _ (le_n 2))) eq_refl).
Defined.

(** ** Thresholds outside 0..254 *)

(** C5: with a threshold of 255 or more the mask selects no pixel and the
    output is the input normalised to RGBA, no alpha cleared; with a
    negative threshold the mask selects every pixel and every alpha of the
    output is 0. *)
Theorem degenerate_thresholds img threshold :
  ((255 ≤ threshold)%Z →
   white_pixels (PIL.to_array (normalise img)) threshold
   = Np.map2d (fun _ => false) (PIL.rgba_pixels img)
   ∧ transparent_image img threshold = Some (PIL.RGBA (PIL.rgba_pixels img)))
  ∧ ((threshold < 0)%Z →
     white_pixels (PIL.to_array (normalise img)) threshold
     = Np.map2d (fun _ => true) (PIL.rgba_pixels img)
     ∧ transparent_image img threshold
       = Some (PIL.RGBA (Np.map2d clear_alpha (PIL.rgba_pixels img)))).
Proof.
  rewrite white_pixels_map2d, normalise_pixels, transparent_image_spec. simpl.
  rewrite map2d_compose.
  split; intros Ht; split.
  - apply map2d_ext. intros p. simpl. rewrite white_channels.
    by apply is_background_high.
  - do 2 f_equal. rewrite <- (map2d_id (PIL.rgba_pixels img)) at 2.
    apply map2d_ext. intros [[[r g] b] a]. unfold mask_pixel.
    by rewrite is_background_high.
  - apply map2d_ext. intros p. simpl. rewrite white_channels.
    by apply is_background_negative.
  - do 2 f_equal. apply map2d_ext. intros [[[r g] b] a]. unfold mask_pixel.
    by rewrite is_background_negative.
Qed.

Lemma degenerate_thresholds_witness :
  (white_pixels (PIL.to_array (normalise (PIL.RGB [[(xff, xff, xff)]]))) 255
   = [[false]]
   ∧ transparent_image (PIL.RGB [[(xff, xff, xff)]]) 255
     = Some (PIL.RGBA [[(xff, xff, xff, xff)]]))
  ∧ (white_pixels (PIL.to_array (normalise (PIL.RGB [[(x00, x00, x00)]]))) (-1)
     = [[true]]
     ∧ transparent_image (PIL.RGB [[(x00, x00, x00)]]) (-1)
       = Some (PIL.RGBA [[(x00, x00, x00, x00)]])).
Proof.
  split.
  - apply (proj1 (degenerate_thresholds (PIL.RGB [[(xff, xff, xff)]]) 255)).
    apply Z.leb_le. reflexivity.
  - apply (proj2 (degenerate_thresholds (PIL.RGB [[(x00, x00, x00)]]) (-1))).
    apply Z.ltb_lt. reflexivity.
Defined.

(** ** Dimensions *)

(** C6: the output is an RGBA image of four 8-bit channels with the width
    and height of the input, row by row. *)
Theorem dimensions_preserved img threshold :
  ∃ out,
    transparent_image img threshold = Some out
    ∧ PIL.mode out = "RGBA" ∧ PIL.bands out = 4%nat
    ∧ PIL.width out = PIL.width img
    ∧ PIL.height out = PIL.height img
    ∧ PIL.row_lengths out = PIL.row_lengths img
    ∧ Forall (Forall (fun px : list byte =>
                        length px = 4%nat ∧ Forall (fun c => (0 ≤ u8 c ≤ 255)%Z) px))
             (PIL.to_array out).
Proof.
  eexists. split; [apply transparent_image_spec|]. simpl.
  split; [done|]. split; [done|].
  rewrite map2d_row_width, map2d_length, map2d_shape.
  split; [|split; [|split]].
  - destruct img; simpl; first [apply map2d_row_width | done].
  - destruct img; simpl; first [apply map2d_length | done].
  - destruct img; simpl; first [apply map2d_shape | done].
  - unfold Np.map2d. apply Forall_fmap, Forall_forall. intros row _.
    apply Forall_fmap, Forall_forall. intros [[[r g] b] a] _. simpl.
    split; [done|]. repeat constructor; apply u8_range.
Qed.

(** ** Idempotence *)

(** C7: applying the transformation to its own output with the same
    threshold gives that output again. *)
Theorem transparent_image_idempotent img threshold :
  ∃ out,
    transparent_image img threshold = Some out
    ∧ transparent_image out threshold = Some out.
Proof.
  eexists. split; [apply transparent_image_spec|].
  rewrite transparent_image_spec. simpl. do 2 f_equal.
  rewrite map2d_compose. apply map2d_ext. intros p. apply mask_pixel_idempotent.
Qed.

(** * The script in a world *)

(** Every run of [remove_white_background], by cases on the input file and
    on whether the output path can be opened for writing. *)
Lemma remove_white_background_cases input_path output_path threshold w :
  remove_white_background input_path output_path threshold w
  = match fs w !! input_path with
    | None => (Raised (FileNotFoundError input_path), w)
    | Some (Unopenable code) => (Raised (OSError code input_path), w)
    | Some (OtherFile _) => (Raised (UnidentifiedImageError input_path), w)
    | Some (TruncatedFile msg) => (Raised (OSError_plain msg), w)
    | Some (ImageFile img) =>
        if can_write w output_path
        then (Returned tt,
              {| fs := <[output_path :=
                           ImageFile (PIL.RGBA (Np.map2d (mask_pixel threshold)
                                                  (PIL.rgba_pixels img)))]> (fs w);
                 can_write := can_write w;
                 write_errno := write_errno w;
                 stdout := stdout w
                           ++ ["Saved transparent image to: " +:+ output_path] |})
        else (Raised (OSError (write_errno w output_path) output_path), w)
    end.
Proof.
  unfold remove_white_background, mbind, M_bind, bind, Image_open.
  destruct (fs w !! input_path) as [[img|content|msg|code]|]; [|done..].
  rewrite transparent_image_spec. simpl. unfold ret, Image_save.
  by destruct (can_write w output_path).
Qed.

(** ** Decoding failures *)

(** C8: when the input path holds no decodable image (it is missing, it
    may not be read, PIL cannot identify it or cannot read it in full),
    [remove_white_background] fails with the error of the decoding step
    (the DecodeError of the specification; the code has no class of that
    name):
    it raises to its caller the very exception that opening and loading the
    input raises, FileNotFoundError for a missing path, and leaves the
    world as it was: no output file is created, no file is changed and
    nothing is printed. *)
Theorem decode_failure_no_output input_path output_path threshold w :
  (∀ img, fs w !! input_path ≠ Some (ImageFile img)) →
  ∃ e,
    Image_open input_path w = (Raised e, w)
    ∧ remove_white_background input_path output_path threshold w = (Raised e, w)
    ∧ (fs w !! input_path = None ∧ e = FileNotFoundError input_path
       ∨ is_Some (fs w !! input_path)).
Proof.
  intros Hbad. rewrite remove_white_background_cases. unfold Image_open.
  destruct (fs w !! input_path) as [[img|content|msg|code]|] eqn:E.
  - by destruct (Hbad img).
  - eexists. split; [done|]. split; [done|]. right. eauto.
  - eexists. split; [done|]. split; [done|]. right. eauto.
  - eexists. split; [done|]. split; [done|]. right. eauto.
  - eexists. split; [done|]. split; [done|]. by left.
Qed.

Lemma decode_failure_no_output_witness :
  ∃ e,
    remove_white_background "missing.png" "out.png" 240
      (mkWorld ∅ (fun _ => true) (fun _ => EACCES) [])
    = (Raised e, mkWorld ∅ (fun _ => true) (fun _ => EACCES) [])
    ∧ e = FileNotFoundError "missing.png".
Proof.
  destruct (decode_failure_no_output "missing.png" "out.png" 240
              (mkWorld ∅ (fun _ => true) (fun _ => EACCES) []))
    as (e & Hopen & Hrun & He).
  - intros img H. vm_compute in H. discriminate H.
  - exists e. split; [exact Hrun|].
    destruct He as [[_ He]|[f Hf]]; [exact He|].
    vm_compute in Hf. discriminate Hf.
Defined.

(** An input cut short and an input that may not be read: the exception is
    PIL's or the operating system's, and no output is written. *)
Example truncated_input :
  remove_white_background "cut.png" "out.png" 240
    (mkWorld {[ "cut.png" := TruncatedFile "Truncated File Read" ]}
             (fun _ => true) (fun _ => EACCES) [])
  = (Raised (OSError_plain "Truncated File Read"),
     mkWorld {[ "cut.png" := TruncatedFile "Truncated File Read" ]}
             (fun _ => true) (fun _ => EACCES) []).
Proof. reflexivity. Qed.

Example unreadable_input :
  remove_white_background "secret.png" "out.png" 240
    (mkWorld {[ "secret.png" := Unopenable EACCES ]}
             (fun _ => true) (fun _ => EACCES) [])
  = (Raised (PermissionError "secret.png"),
     mkWorld {[ "secret.png" := Unopenable EACCES ]}
             (fun _ => true) (fun _ => EACCES) []).
Proof. reflexivity. Qed.

(** ** Determinism *)

(** C9: two runs whose input files decode to the same image, with the same
    threshold and a writable output path, both return and leave the same
    image in the output file, whatever else the two worlds hold. *)
Theorem same_input_same_output input_path output_path threshold img w1 w2 :
  fs w1 !! input_path = Some (ImageFile img) →
  fs w2 !! input_path = Some (ImageFile img) →
  can_write w1 output_path = true →
  can_write w2 output_path = true →
  ∃ out w1' w2',
    transparent_image img threshold = Some out
    ∧ remove_white_background input_path output_path threshold w1 = (Returned tt, w1')
    ∧ remove_white_background input_path output_path threshold w2 = (Returned tt, w2')
    ∧ fs w1' !! output_path = Some (ImageFile out)
    ∧ fs w2' !! output_path = Some (ImageFile out).
Proof.
  intros Hin1 Hin2 Hout1 Hout2.
  rewrite !remove_white_background_cases, Hin1, Hin2, Hout1, Hout2.
  eexists _, _, _. split; [apply transparent_image_spec|].
  split; [done|]. split; [done|]. simpl.
  by rewrite !lookup_insert_eq.
Qed.

Lemma same_input_same_output_witness :
  ∃ out w1' w2',
    transparent_image (PIL.RGB [[(xff, xff, xff)]]) 240 = Some out
    ∧ remove_white_background "in.png" "out.png" 240
        (mkWorld {[ "in.png" := ImageFile (PIL.RGB [[(xff, xff, xff)]]) ]}
                 (fun _ => true) (fun _ => EACCES) [])
      = (Returned tt, w1')
    ∧ remove_white_background "in.png" "out.png" 240
        (mkWorld {[ "in.png" := ImageFile (PIL.RGB [[(xff, xff, xff)]]);
                    "notes.txt" := OtherFile [x68; x69] ]}
                 (fun _ => true) (fun _ => EACCES) ["earlier output"])
      = (Returned tt, w2')
    ∧ fs w1' !! "out.png" = Some (ImageFile out)
    ∧ fs w2' !! "out.png" = Some (ImageFile out).
Proof.
  apply (same_input_same_output "in.png" "out.png" 240
           (PIL.RGB [[(xff, xff, xff)]])
           (mkWorld {[ "in.png" := ImageFile (PIL.RGB [[(xff, xff, xff)]]) ]}
                    (fun _ => true) (fun _ => EACCES) [])
           (mkWorld {[ "in.png" := ImageFile (PIL.RGB [[(xff, xff, xff)]]);
                       "notes.txt" := OtherFile [x68; x69] ]}
                    (fun _ => true) (fun _ => EACCES) ["earlier output"]));
    vm_compute; reflexivity.
Defined.

(** ** The entry point *)

(** C10: the entry point catches whatever [remove_white_background]
    raises and prints it after "Error: "; the process ends with exit
    status 0 in every world, after a failure as after a success. *)
Theorem main_exit_status_zero w :
  fst (run_main w) = 0%Z
  ∧ match remove_white_background input_file output_file 240 w with
    | (Returned _, w') =>
        snd (run_main w)
        = {| fs := fs w'; can_write := can_write w';
             write_errno := write_errno w';
             stdout := stdout w' ++ ["Successfully removed white background!"] |}
    | (Raised e, w') =>
        snd (run_main w)
        = {| fs := fs w'; can_write := can_write w';
             write_errno := write_errno w';
             stdout := stdout w' ++ ["Error: " +:+ str e] |}
    end.
Proof.
  unfold run_main, main, try_except, mbind, M_bind, bind.
  by destruct (remove_white_background input_file output_file 240 w)
    as [[[]|e] w'].
Qed.

(** A failing run and a successful run, both with exit status 0. *)
Example main_missing_input :
  run_main (mkWorld ∅ (fun _ => true) (fun _ => EACCES) [])
  = (0%Z,
     mkWorld ∅ (fun _ => true) (fun _ => EACCES)
       ["Error: [Errno 2] No such file or directory: 'public/assets/sprites/cannon2.png'"]).
Proof. reflexivity. Qed.

Example main_success :
  let w := mkWorld {[ input_file := ImageFile (PIL.L [[xff; x00]]) ]}
                   (fun _ => true) (fun _ => EACCES) [] in
  fst (run_main w) = 0%Z
  ∧ stdout (snd (run_main w))
    = ["Saved transparent image to: public/assets/sprites/cannon2_transparent.png";
       "Successfully removed white background!"]
  ∧ fs (snd (run_main w)) !! output_file
    = Some (ImageFile (PIL.RGBA [[(xff, xff, xff, x00); (x00, x00, x00, xff)]])).
Proof. vm_compute. done. Qed.


(** * Further properties of the transformation *)

(** Two functions that agree on the pixels an array holds give the same
    array. *)
Lemma map2d_ext_at2 {A B} (f g : A → B) (rows : list (list A)) :
  (∀ i j x, at2 rows i j = Some x → f x = g x) →
  Np.map2d f rows = Np.map2d g rows.
Proof.
  intros Hfg. unfold Np.map2d. apply list_eq. intros i.
  rewrite !list_lookup_fmap.
  destruct (rows !! i) as [row|] eqn:Ei; simpl; [|done]. f_equal.
  apply list_eq. intros j. rewrite !list_lookup_fmap.
  destruct (row !! j) as [x|] eqn:Ej; simpl; [|done]. f_equal.
  apply (Hfg i j). unfold at2. by rewrite Ei.
Qed.

Lemma is_background_monotone t1 t2 p :
  (t1 ≤ t2)%Z → is_background t2 p = true → is_background t1 p = true.
Proof.
  intros Ht. destruct p as [[[r g] b] a]. unfold is_background.
  destruct (Z.gtb_spec (u8 r) t2); [|done].
  destruct (Z.gtb_spec (u8 g) t2); [|done].
  destruct (Z.gtb_spec (u8 b) t2); [|done]. intros _.
  destruct (Z.gtb_spec (u8 r) t1); [|lia].
  destruct (Z.gtb_spec (u8 g) t1); [|lia].
  destruct (Z.gtb_spec (u8 b) t1); [done | lia].
Qed.

Lemma is_background_min t1 t2 p :
  is_background (Z.min t1 t2) p = is_background t1 p || is_background t2 p.
Proof.
  destruct (Z.min_spec t1 t2) as [[Hlt ->]|[Hle ->]].
  - destruct (is_background t1 p) eqn:E1; [done|]. simpl.
    destruct (is_background t2 p) eqn:E2; [|done].
    apply (is_background_monotone t1 t2) in E2; [congruence | lia].
  - destruct (is_background t2 p) eqn:E2; [by rewrite orb_true_r|].
    rewrite orb_false_r.
    destruct (is_background t1 p) eqn:E1; [|done].
    apply (is_background_monotone t2 t1) in E1; [congruence | lia].
Qed.

Lemma mask_pixel_min t1 t2 p :
  mask_pixel t2 (mask_pixel t1 p) = mask_pixel (Z.min t1 t2) p.
Proof.
  destruct p as [[[r g] b] a].
  unfold mask_pixel at 2 3. rewrite is_background_min.
  destruct (is_background t1 (r, g, b, a)) eqn:E1; cbn [orb].
  - unfold mask_pixel.
    by destruct (is_background t2 (r, g, b, x00)).
  - unfold mask_pixel. by destruct (is_background t2 (r, g, b, a)).
Qed.

(** ** The mask and the threshold *)

(** X1: raising the threshold never selects more pixels: a position the
    mask selects at a threshold is selected at every lower threshold, for
    any array. *)
Theorem threshold_monotone (data : Np.array3) t1 t2 i j :
  (t1 ≤ t2)%Z →
  at2 (white_pixels data t2) i j = Some true →
  at2 (white_pixels data t1) i j = Some true.
Proof.
  intros Ht. rewrite !white_pixels_map2d, !at2_map2d.
  destruct (at2 data i j) as [px|]; simpl; [|done].
  intros [= H]. f_equal. unfold white in *.
  destruct (Z.gtb_spec (u8 (default x00 (px !! 0%nat))) t2); [|done].
  destruct (Z.gtb_spec (u8 (default x00 (px !! 1%nat))) t2); [|done].
  destruct (Z.gtb_spec (u8 (default x00 (px !! 2%nat))) t2); [|done].
  destruct (Z.gtb_spec (u8 (default x00 (px !! 0%nat))) t1); [|lia].
  destruct (Z.gtb_spec (u8 (default x00 (px !! 1%nat))) t1); [|lia].
  destruct (Z.gtb_spec (u8 (default x00 (px !! 2%nat))) t1); [done | lia].
Qed.

Lemma threshold_monotone_witness :
  at2 (white_pixels [[[xfa; xfb; xfc; xff]]] 100) 0 0 = Some true.
Proof.
  apply (threshold_monotone [[[xfa; xfb; xfc; xff]]] 100 240 0%nat 0%nat).
  - apply Z.leb_le. reflexivity.
  - reflexivity.
Defined.

(** X2: the mask has the shape of the first two axes of the array, and the
    masked assignment keeps the shape of the array and the number of
    channels of every pixel, for any array: the elementwise operations of
    lines 30 to 35 always meet arrays of equal shape. *)
Theorem mask_keeps_shape (data : Np.array3) threshold :
  Np.shape2 (white_pixels data threshold) = Np.shape2 data
  ∧ Np.shape2 (Np.assign_where data (white_pixels data threshold) 3 x00)
    = Np.shape2 data
  ∧ Np.map2d length (Np.assign_where data (white_pixels data threshold) 3 x00)
    = Np.map2d length data.
Proof.
  unfold Np.assign_where. rewrite white_pixels_map2d, zip2_map2d_r.
  rewrite !map2d_shape, map2d_compose.
  split; [done|]. split; [done|].
  apply map2d_ext. intros px. simpl.
  destruct (white threshold px); [apply length_insert | done].
Qed.

(** X3: the transformation never raises an alpha: every output alpha is at
    most the alpha of the normalised input pixel, and it is 0 exactly when
    the pixel is background or was fully transparent already. *)
Theorem alpha_never_raised img threshold i j p :
  at2 (PIL.rgba_pixels img) i j = Some p →
  ∃ out q,
    transparent_image img threshold = Some out
    ∧ at2 (PIL.rgba_pixels out) i j = Some q
    ∧ (u8 (alpha q) ≤ u8 (alpha p))%Z
    ∧ (alpha q = x00 ↔ is_background threshold p = true ∨ alpha p = x00).
Proof.
  intros Hp. eexists _, (mask_pixel threshold p).
  split; [apply transparent_image_spec|]. simpl.
  split; [by rewrite at2_map2d, Hp|].
  rewrite mask_pixel_alpha.
  destruct (is_background threshold p).
  - split; [apply u8_range|]. split; auto.
  - split; [lia|]. split; [auto | by intros [|]].
Qed.

Lemma alpha_never_raised_witness :
  ∃ out q,
    transparent_image (PIL.RGBA [[(x0a, x0a, x0a, x00)]]) 240 = Some out
    ∧ at2 (PIL.rgba_pixels out) 0 0 = Some q
    ∧ (u8 (alpha q) ≤ u8 x00)%Z
    ∧ (alpha q = x00 ↔ is_background 240 (x0a, x0a, x0a, x00) = true ∨ x00 = x00).
Proof.
  exact (alpha_never_raised (PIL.RGBA [[(x0a, x0a, x0a, x00)]]) 240 0%nat 0%nat
           (x0a, x0a, x0a, x00) eq_refl).
Defined.

(** X4: transforming the output again with another threshold is the
    transformation of the input with the smaller of the two thresholds. *)
Theorem thresholds_compose img t1 t2 :
  ∃ out,
    transparent_image img t1 = Some out
    ∧ transparent_image out t2 = transparent_image img (Z.min t1 t2).
Proof.
  eexists. split; [apply transparent_image_spec|].
  rewrite !transparent_image_spec. simpl. do 2 f_equal.
  rewrite map2d_compose. apply map2d_ext. intros p. apply mask_pixel_min.
Qed.

(** X5: the transformation returns the normalised input unchanged exactly
    when every background pixel of it is fully transparent already; in
    particular when no pixel is background. *)
Theorem unchanged_iff_background_transparent img threshold :
  transparent_image img threshold = Some (PIL.convert_RGBA img)
  ↔ (∀ i j p, at2 (PIL.rgba_pixels img) i j = Some p →
              is_background threshold p = true → alpha p = x00).
Proof.
  rewrite transparent_image_spec. unfold PIL.convert_RGBA. split.
  - intros [= Heq] i j p Hp Hbg.
    assert (Hq : at2 (Np.map2d (mask_pixel threshold) (PIL.rgba_pixels img)) i j
                 = Some (mask_pixel threshold p)) by (by rewrite at2_map2d, Hp).
    rewrite Heq, Hp in Hq. injection Hq as Hq.
    rewrite Hq at 1. by rewrite mask_pixel_alpha, Hbg.
  - intros Hall. do 2 f_equal.
    rewrite <- (map2d_id (PIL.rgba_pixels img)) at 2.
    apply map2d_ext_at2. intros i j [[[r g] b] a] Hp. unfold mask_pixel.
    destruct (is_background threshold (r, g, b, a)) eqn:E; [|done].
    specialize (Hall i j _ Hp E). simpl in Hall. by rewrite Hall.
Qed.

Lemma unchanged_iff_background_transparent_witness :
  transparent_image (PIL.RGBA [[(xff, xff, xff, x00); (x0a, x0a, x0a, x64)]]) 240
  = Some (PIL.RGBA [[(xff, xff, xff, x00); (x0a, x0a, x0a, x64)]]).
Proof.
  apply (proj2 (unchanged_iff_background_transparent
                  (PIL.RGBA [[(xff, xff, xff, x00); (x0a, x0a, x0a, x64)]]) 240)).
  intros [|[|i]] [|[|[|j]]] p Hp Hbg; try discriminate Hp;
    injection Hp as <-; [reflexivity | discriminate Hbg].
Defined.

(** X6: for a grayscale input the three tests are one.  Without a
    transparency entry, a pixel of level l becomes (l, l, l, 0) when l
    exceeds the threshold and (l, l, l, 255) otherwise; with a transparency
    entry k, it becomes (l, l, l, 0) when l exceeds the threshold or
    equals k, and (l, l, l, 255) otherwise. *)
Theorem grayscale_output px threshold :
  transparent_image (PIL.L px) threshold
  = Some (PIL.RGBA (Np.map2d
                      (fun l : byte =>
                         (l, l, l, if (u8 l >? threshold)%Z then x00 else xff))
                      px))
  ∧ ∀ k,
      transparent_image (PIL.L_tRNS px k) threshold
      = Some (PIL.RGBA (Np.map2d
                          (fun l : byte =>
                             (l, l, l,
                              if (u8 l >? threshold)%Z || Strings.Byte.eqb l k
                              then x00 else xff))
                          px)).
Proof.
  split; [|intros k]; rewrite transparent_image_spec; simpl;
    rewrite map2d_compose; do 2 f_equal; apply map2d_ext; intros l; simpl;
    unfold mask_pixel, is_background.
  - by destruct (u8 l >? threshold)%Z.
  - destruct (u8 l >? threshold)%Z; simpl; [done|].
    by destruct (Strings.Byte.eqb l k).
Qed.

(** A grayscale image whose transparency entry is the level 16, at
    threshold 240: the pixel of level 16 comes out transparent. *)
Example grayscale_transparency_entry :
  transparent_image (PIL.L_tRNS [[x10; x80; xff]] x10) 240
  = Some (PIL.RGBA [[(x10, x10, x10, x00); (x80, x80, x80, xff);
                     (xff, xff, xff, x00)]]).
Proof. reflexivity. Qed.

(** * Further properties of the script in a world *)

Lemma input_output_differ : input_file ≠ output_file.
Proof. apply String.eqb_neq. reflexivity. Qed.

(** Every run of [main], by cases as for [remove_white_background]. *)
Lemma main_cases w :
  main w
  = match remove_white_background input_file output_file 240 w with
    | (Returned _, w') =>
        (Returned tt,
         {| fs := fs w'; can_write := can_write w';
            write_errno := write_errno w';
            stdout := stdout w' ++ ["Successfully removed white background!"] |})
    | (Raised e, w') =>
        (Returned tt,
         {| fs := fs w'; can_write := can_write w';
            write_errno := write_errno w';
            stdout := stdout w' ++ ["Error: " +:+ str e] |})
    end.
Proof.
  unfold main, try_except, mbind, M_bind, bind.
  by destruct (remove_white_background input_file output_file 240 w)
    as [[[]|e] w'].
Qed.

(** ** When the function returns *)

(** X7: [remove_white_background] returns exactly when the input path holds
    a decodable image and the output path can be written; the pixel
    processing in between never raises. *)
Theorem returns_iff_readable_and_writable input_path output_path threshold w :
  (∃ w', remove_white_background input_path output_path threshold w
         = (Returned tt, w'))
  ↔ (∃ img, fs w !! input_path = Some (ImageFile img))
    ∧ can_write w output_path = true.
Proof.
  rewrite remove_white_background_cases.
  destruct (fs w !! input_path) as [[img|content|msg|code]|].
  - destruct (can_write w output_path).
    + split; [eauto | intros _; eauto].
    + split; [by intros [w' [=]] | by intros [_ [=]]].
  - split; [by intros [w' [=]] | by intros [[img [=]] _]].
  - split; [by intros [w' [=]] | by intros [[img [=]] _]].
  - split; [by intros [w' [=]] | by intros [[img [=]] _]].
  - split; [by intros [w' [=]] | by intros [[img [=]] _]].
Qed.

Lemma returns_iff_readable_and_writable_witness :
  ∃ w', remove_white_background "in.png" "out.png" 240
          (mkWorld {[ "in.png" := ImageFile (PIL.L [[xff]]) ]}
                   (fun _ => true) (fun _ => EACCES) [])
        = (Returned tt, w').
Proof.
  apply (proj2 (returns_iff_readable_and_writable "in.png" "out.png" 240
                  (mkWorld {[ "in.png" := ImageFile (PIL.L [[xff]]) ]}
                           (fun _ => true) (fun _ => EACCES) []))).
  split; [exists (PIL.L [[xff]]); vm_compute; reflexivity | reflexivity].
Defined.

(** X8: a successful run stores at the output path the image masked pixel
    by pixel, prints the one line naming that path after what was printed
    before, and leaves the write permissions as they were. *)
Theorem successful_run input_path output_path threshold img w :
  fs w !! input_path = Some (ImageFile img) →
  can_write w output_path = true →
  ∃ w',
    remove_white_background input_path output_path threshold w = (Returned tt, w')
    ∧ fs w' !! output_path
      = Some (ImageFile (PIL.RGBA (Np.map2d (mask_pixel threshold)
                                     (PIL.rgba_pixels img))))
    ∧ stdout w' = stdout w ++ ["Saved transparent image to: " +:+ output_path]
    ∧ can_write w' = can_write w.
Proof.
  intros Hin Hout. rewrite remove_white_background_cases, Hin, Hout.
  eexists. split; [done|]. simpl. by rewrite lookup_insert_eq.
Qed.

Lemma successful_run_witness :
  ∃ w',
    remove_white_background "in.png" "out.png" 240
      (mkWorld {[ "in.png" := ImageFile (PIL.RGB [[(xff, xff, xff)]]) ]}
               (fun _ => true) (fun _ => EACCES) ["hello"])
    = (Returned tt, w')
    ∧ fs w' !! "out.png" = Some (ImageFile (PIL.RGBA [[(xff, xff, xff, x00)]]))
    ∧ stdout w' = ["hello"; "Saved transparent image to: out.png"]
    ∧ can_write w' = (fun _ => true).
Proof.
  apply (successful_run "in.png" "out.png" 240 (PIL.RGB [[(xff, xff, xff)]])
           (mkWorld {[ "in.png" := ImageFile (PIL.RGB [[(xff, xff, xff)]]) ]}
                    (fun _ => true) (fun _ => EACCES) ["hello"]));
    vm_compute; reflexivity.
Defined.

(** ** When the function raises *)

(** X9: a run that raises leaves the world exactly as it was (no file
    written, nothing printed), and the exception is either the one that
    opening and loading the input raises or, the input once decoded, the
    OSError with which the operating system refuses to open the output
    path for writing.  The array processing and [Image.fromarray] never
    raise. *)
Theorem failed_run_changes_nothing input_path output_path threshold w e w' :
  remove_white_background input_path output_path threshold w = (Raised e, w') →
  w' = w
  ∧ (Image_open input_path w = (Raised e, w)
     ∨ (∃ img, Image_open input_path w = (Returned img, w))
       ∧ can_write w output_path = false
       ∧ e = OSError (write_errno w output_path) output_path).
Proof.
  rewrite remove_white_background_cases. unfold Image_open.
  destruct (fs w !! input_path) as [[img|content|msg|code]|].
  - destruct (can_write w output_path); [done|]. intros [= <- <-].
    split; [done|]. right. eauto.
  - intros [= <- <-]. auto.
  - intros [= <- <-]. auto.
  - intros [= <- <-]. auto.
  - intros [= <- <-]. auto.
Qed.

Lemma failed_run_changes_nothing_witness :
  mkWorld {[ "in.png" := TruncatedFile "Truncated File Read" ]}
          (fun _ => true) (fun _ => EACCES) []
  = mkWorld {[ "in.png" := TruncatedFile "Truncated File Read" ]}
            (fun _ => true) (fun _ => EACCES) []
  ∧ (Image_open "in.png"
       (mkWorld {[ "in.png" := TruncatedFile "Truncated File Read" ]}
                (fun _ => true) (fun _ => EACCES) [])
     = (Raised (OSError_plain "Truncated File Read"),
        mkWorld {[ "in.png" := TruncatedFile "Truncated File Read" ]}
                (fun _ => true) (fun _ => EACCES) [])
     ∨ (∃ img,
          Image_open "in.png"
            (mkWorld {[ "in.png" := TruncatedFile "Truncated File Read" ]}
                     (fun _ => true) (fun _ => EACCES) [])
          = (Returned img,
             mkWorld {[ "in.png" := TruncatedFile "Truncated File Read" ]}
                     (fun _ => true) (fun _ => EACCES) []))
       ∧ true = false
       ∧ OSError_plain "Truncated File Read" = OSError EACCES "out.png").
Proof.
  apply (failed_run_changes_nothing "in.png" "out.png" 240
           (mkWorld {[ "in.png" := TruncatedFile "Truncated File Read" ]}
                    (fun _ => true) (fun _ => EACCES) [])).
  vm_compute. reflexivity.
Defined.

(** X10: when the input decodes but the output path cannot be opened for
    writing, the save raises to the caller the OSError of the operating
    system's refusal (FileNotFoundError when the directory is missing,
    PermissionError when access is denied); the line
    "Saved transparent image to: ..." is not printed and no file changes. *)
Theorem unwritable_output_raises input_path output_path threshold img w :
  fs w !! input_path = Some (ImageFile img) →
  can_write w output_path = false →
  remove_white_background input_path output_path threshold w
  = (Raised (OSError (write_errno w output_path) output_path), w).
Proof.
  intros Hin Hout. by rewrite remove_white_background_cases, Hin, Hout.
Qed.

Lemma unwritable_output_raises_witness :
  remove_white_background "in.png" "/missing/out.png" 240
    (mkWorld {[ "in.png" := ImageFile (PIL.L [[xff]]) ]}
             (fun p => negb (String.eqb p "/missing/out.png"))
             (fun _ => ENOENT) [])
  = (Raised (FileNotFoundError "/missing/out.png"),
     mkWorld {[ "in.png" := ImageFile (PIL.L [[xff]]) ]}
             (fun p => negb (String.eqb p "/missing/out.png"))
             (fun _ => ENOENT) []).
Proof.
  apply (unwritable_output_raises "in.png" "/missing/out.png" 240 (PIL.L [[xff]])
           (mkWorld {[ "in.png" := ImageFile (PIL.L [[xff]]) ]}
                    (fun p => negb (String.eqb p "/missing/out.png"))
                    (fun _ => ENOENT) []));
    vm_compute; reflexivity.
Defined.

(** ** What the function leaves alone *)

(** X11: whatever the outcome, every path other than the output path holds
    after the run what it held before. *)
Theorem other_files_untouched input_path output_path threshold w p :
  p ≠ output_path →
  fs (remove_white_background input_path output_path threshold w).2 !! p
  = fs w !! p.
Proof.
  intros Hp. rewrite remove_white_background_cases.
  destruct (fs w !! input_path) as [[img|content|msg|code]|]; [|done..].
  destruct (can_write w output_path); [|done]. simpl.
  by rewrite lookup_insert_ne.
Qed.

Lemma other_files_untouched_witness :
  fs (remove_white_background "in.png" "out.png" 240
        (mkWorld {[ "in.png" := ImageFile (PIL.L [[xff]]) ]}
                 (fun _ => true) (fun _ => EACCES) [])).2 !! "in.png"
  = fs (mkWorld {[ "in.png" := ImageFile (PIL.L [[xff]]) ]}
                (fun _ => true) (fun _ => EACCES) []) !! "in.png".
Proof.
  apply (other_files_untouched "in.png" "out.png" 240
           (mkWorld {[ "in.png" := ImageFile (PIL.L [[xff]]) ]}
                    (fun _ => true) (fun _ => EACCES) [])
           "in.png").
  apply String.eqb_neq. reflexivity.
Defined.

(** X12: after a successful run, running the function on its own output
    file in place (input path and output path both the output path, same
    threshold) returns and leaves every file as it is. *)
Theorem rerun_in_place input_path output_path threshold img w :
  fs w !! input_path = Some (ImageFile img) →
  can_write w output_path = true →
  ∃ w1 w2,
    remove_white_background input_path output_path threshold w = (Returned tt, w1)
    ∧ remove_white_background output_path output_path threshold w1
      = (Returned tt, w2)
    ∧ fs w2 = fs w1.
Proof.
  intros Hin Hout. rewrite remove_white_background_cases, Hin, Hout.
  eexists _, _. split; [done|].
  rewrite remove_white_background_cases. simpl.
  rewrite lookup_insert_eq, Hout. split; [done|]. simpl.
  rewrite insert_insert_eq. do 3 f_equal.
  rewrite map2d_compose. apply map2d_ext. intros p. apply mask_pixel_idempotent.
Qed.

Lemma rerun_in_place_witness :
  ∃ w1 w2,
    remove_white_background "in.png" "out.png" 240
      (mkWorld {[ "in.png" := ImageFile (PIL.RGB [[(xff, xff, xff)]]) ]}
               (fun _ => true) (fun _ => EACCES) [])
    = (Returned tt, w1)
    ∧ remove_white_background "out.png" "out.png" 240 w1 = (Returned tt, w2)
    ∧ fs w2 = fs w1.
Proof.
  apply (rerun_in_place "in.png" "out.png" 240 (PIL.RGB [[(xff, xff, xff)]])
           (mkWorld {[ "in.png" := ImageFile (PIL.RGB [[(xff, xff, xff)]]) ]}
                    (fun _ => true) (fun _ => EACCES) []));
    vm_compute; reflexivity.
Defined.

(** ** The entry point *)

(** X13: the entry point changes no file but its output file; in
    particular the input file cannon2.png is never overwritten. *)
Theorem main_keeps_other_files w p :
  p ≠ output_file →
  fs (run_main w).2 !! p = fs w !! p
  ∧ fs (run_main w).2 !! input_file = fs w !! input_file.
Proof.
  intros Hp.
  assert (Hall : ∀ q, q ≠ output_file → fs (run_main w).2 !! q = fs w !! q).
  { intros q Hq.
    pose proof (other_files_untouched input_file output_file 240 w q Hq) as H.
    unfold run_main. rewrite main_cases.
    by destruct (remove_white_background input_file output_file 240 w)
      as [[[]|e] w']. }
  split; [by apply Hall | apply Hall, input_output_differ].
Qed.

Lemma main_keeps_other_files_witness :
  fs (run_main (mkWorld {[ input_file := ImageFile (PIL.L [[xff]]) ]}
                  (fun _ => true) (fun _ => EACCES) [])).2 !! "notes.txt"
  = fs (mkWorld {[ input_file := ImageFile (PIL.L [[xff]]) ]}
          (fun _ => true) (fun _ => EACCES) []) !! "notes.txt"
  ∧ fs (run_main (mkWorld {[ input_file := ImageFile (PIL.L [[xff]]) ]}
                    (fun _ => true) (fun _ => EACCES) [])).2 !! input_file
    = fs (mkWorld {[ input_file := ImageFile (PIL.L [[xff]]) ]}
            (fun _ => true) (fun _ => EACCES) []) !! input_file.
Proof.
  apply (main_keeps_other_files
           (mkWorld {[ input_file := ImageFile (PIL.L [[xff]]) ]}
                    (fun _ => true) (fun _ => EACCES) [])
           "notes.txt").
  apply String.eqb_neq. reflexivity.
Defined.

(** X14: running the script a second time leaves the files as the first
    run left them, in every world: the input is not consumed and the output
    is written again with the same image. *)
Theorem main_rerun_same_files w :
  fs (run_main (run_main w).2).2 = fs (run_main w).2.
Proof.
  unfold run_main. rewrite !main_cases, !remove_white_background_cases.
  destruct (fs w !! input_file) as [[img|content|msg|code]|] eqn:Ein.
  - destruct (can_write w output_file) eqn:Eout; simpl.
    + rewrite lookup_insert_ne, Ein, Eout by (apply not_eq_sym, input_output_differ).
      simpl. by rewrite insert_insert_eq.
    + by rewrite Ein, Eout.
  - simpl. by rewrite Ein.
  - simpl. by rewrite Ein.
  - simpl. by rewrite Ein.
  - simpl. by rewrite Ein.
Qed.
